(** * Persona consistency validator

    A shallow embedding of [validator/main.py]: the class
    [PersonaConsistency] with its constructor [__init__] and its method
    [validate].  Python computations are functions from a [world] to an
    [outcome] and a new [world]; an exception leaves the effects made
    before it in place.  Python [float]s are IEEE binary64 numbers, here
    Rocq's primitive floats; the entries of the arrays that the imported
    libraries produce are taken in the same format. *)

From Stdlib Require Import ZArith Ascii Floats Lia.
From stdpp Require Import base strings list gmap pretty.

Set Warnings "-inexact-float,-register-all".
Local Open Scope string_scope.

(** ** Python values *)

(** The values a caller can hand to [validate] ([value: Any]) and the
    objects the validator stores in its attributes. *)
Inductive pyval : Type :=
| VNone
| VBool (b : bool)
| VInt (n : Z)
| VFloat (x : float)
| VStr (s : string)
| VBytes (bs : list Z)
| VList (items : list pyval)
| VArray (rows : list (list float))
| VModel (model_name : string)
| VOpaque (name : string).

(** [isinstance(value, str)] *)
Definition isinstance_str (value : pyval) : bool :=
  match value with
  | VStr _ => true
  | _ => false
  end.

(** The two verdicts of [guardrails.validator_base]. *)
Inductive ValidationResult : Type :=
| PassResult
| FailResult (error_message : string).

(** ** Effects: exceptions, the instance dictionary and the model's calls *)

Inductive exn : Type :=
| NameError (name : string)
| AttributeError (attribute : string)
| TypeError (operation : string)
| IndexError.

Inductive outcome (A : Type) : Type :=
| Return (a : A)
| Raise (e : exn).
Arguments Return {A} a.
Arguments Raise {A} e.

(** [self_dict] is [self.__dict__]; [encode_calls] lists, oldest first,
    the argument of every call made to the [encode] method of the
    sentence model that the instance holds. *)
Record world : Type := World {
  self_dict : gmap string pyval;
  encode_calls : list (list string)
}.

Definition Py (A : Type) : Type := world -> outcome A * world.

#[global] Instance Py_ret : MRet Py := fun A a w => (Return a, w).

#[global] Instance Py_bind : MBind Py := fun A B k c w =>
  match c w with
  | (Return a, w') => k a w'
  | (Raise e, w') => (Raise e, w')
  end.

Definition raise {A : Type} (e : exn) : Py A := fun w => (Raise e, w).

Definition getattr (name : string) : Py pyval := fun w =>
  match self_dict w !! name with
  | Some v => (Return v, w)
  | None => (Raise (AttributeError name), w)
  end.

Definition setattr (name : string) (v : pyval) : Py unit := fun w =>
  (Return tt, {| self_dict := <[name := v]> (self_dict w);
                 encode_calls := encode_calls w |}).

(** Subscription [l[i]] of a sequence. *)
Definition getitem {A : Type} (l : list A) (i : nat) : Py A :=
  match l !! i with
  | Some a => mret a
  | None => raise IndexError
  end.

(** ** Name resolution *)

(** The names bound at module level once [main.py] has been executed:
    the imports of lines 1 to 12 and the class of line 15. *)
Definition module_bindings : list (string * pyval) :=
  [ ("re", VOpaque "re");
    ("Any", VOpaque "typing.Any");
    ("Callable", VOpaque "typing.Callable");
    ("Dict", VOpaque "typing.Dict");
    ("Optional", VOpaque "typing.Optional");
    ("SentenceTransformer", VOpaque "sentence_transformers.SentenceTransformer");
    ("cosine_similarity", VOpaque "sklearn.metrics.pairwise.cosine_similarity");
    ("FailResult", VOpaque "guardrails.validator_base.FailResult");
    ("PassResult", VOpaque "guardrails.validator_base.PassResult");
    ("ValidationResult", VOpaque "guardrails.validator_base.ValidationResult");
    ("Validator", VOpaque "guardrails.validator_base.Validator");
    ("register_validator", VOpaque "guardrails.validator_base.register_validator");
    ("PersonaConsistency", VOpaque "PersonaConsistency") ].

Definition module_globals : gmap string pyval :=
  foldl (fun g b => <[b.1 := b.2]> g) ∅ module_bindings.

(** The functions, types and constants of Python's [builtins] module,
    followed by its exception classes. *)
Definition builtin_names : list string :=
  [ "abs"; "aiter"; "all"; "anext"; "any"; "ascii"; "bin"; "bool";
    "breakpoint"; "bytearray"; "bytes"; "callable"; "chr"; "classmethod";
    "compile"; "complex"; "delattr"; "dict"; "dir"; "divmod"; "enumerate";
    "eval"; "exec"; "filter"; "float"; "format"; "frozenset"; "getattr";
    "globals"; "hasattr"; "hash"; "help"; "hex"; "id"; "input"; "int";
    "isinstance"; "issubclass"; "iter"; "len"; "list"; "locals"; "map";
    "max"; "memoryview"; "min"; "next"; "object"; "oct"; "open"; "ord";
    "pow"; "print"; "property"; "range"; "repr"; "reversed"; "round";
    "set"; "setattr"; "slice"; "sorted"; "staticmethod"; "str"; "sum";
    "super"; "tuple"; "type"; "vars"; "zip"; "__import__";
    "NotImplemented"; "Ellipsis"; "__debug__"; "copyright"; "credits";
    "license"; "exit"; "quit";
    "BaseException"; "Exception"; "ArithmeticError"; "AssertionError";
    "AttributeError"; "BlockingIOError"; "BrokenPipeError"; "BufferError";
    "BytesWarning"; "ChildProcessError"; "ConnectionAbortedError";
    "ConnectionError"; "ConnectionRefusedError"; "ConnectionResetError";
    "DeprecationWarning"; "EOFError"; "EncodingWarning";
    "EnvironmentError"; "FileExistsError"; "FileNotFoundError";
    "FloatingPointError"; "FutureWarning"; "GeneratorExit"; "IOError";
    "ImportError"; "ImportWarning"; "IndentationError"; "IndexError";
    "InterruptedError"; "IsADirectoryError"; "KeyError";
    "KeyboardInterrupt"; "LookupError"; "MemoryError";
    "ModuleNotFoundError"; "NameError"; "NotADirectoryError";
    "NotImplementedError"; "OSError"; "OverflowError";
    "PendingDeprecationWarning"; "PermissionError"; "ProcessLookupError";
    "RecursionError"; "ReferenceError"; "ResourceWarning"; "RuntimeError";
    "RuntimeWarning"; "StopAsyncIteration"; "StopIteration"; "SyntaxError";
    "SyntaxWarning"; "SystemError"; "SystemExit"; "TabError";
    "TimeoutError"; "TypeError"; "UnboundLocalError"; "UnicodeDecodeError";
    "UnicodeEncodeError"; "UnicodeError"; "UnicodeTranslateError";
    "UnicodeWarning"; "UserWarning"; "ValueError"; "Warning";
    "ZeroDivisionError" ].

Definition builtins : gmap string pyval :=
  list_to_map ((fun n => (n, VOpaque n)) <$> builtin_names).

(** A name that the body of a method uses and never assigns is looked
    up in the module's globals, then in the builtins; found in neither,
    the lookup raises [NameError]. *)
Definition load_global (name : string) : Py pyval :=
  match module_globals !! name with
  | Some v => mret v
  | None =>
      match builtins !! name with
      | Some v => mret v
      | None => raise (NameError name)
      end
  end.

(** ** The imported libraries *)

(** What the program imports and the sources do not contain: the
    sentence model's [encode] (by model name, from a list of sentences to
    one row per sentence), scikit-learn's [cosine_similarity] (from two
    matrices to the matrix of pairwise similarities) and the initializer
    of the base class [Validator] (from the [on_fail] argument and the
    keyword arguments to its effect on the instance dictionary). *)
Class Imports : Type := {
  encode : string -> list string -> list (list float);
  cosine_similarity : list (list float) -> list (list float) -> list (list float);
  Validator_init : pyval -> list (string * pyval) -> gmap string pyval -> gmap string pyval
}.

(** ** Formatting a similarity *)

(** The integer nearest to [n * 2 ^ e], a tie going to the even one. *)
Definition round_half_even (n e : Z) : Z :=
  (if 0 <=? e then n * 2 ^ e
   else
     let d := 2 ^ (- e) in
     let q := n / d in
     let r := n mod d in
     if 2 * r <? d then q
     else if d <? 2 * r then q + 1
     else if Z.even q then q else q + 1)%Z.

Definition two_digits (n : Z) : string :=
  pretty (Z.to_N (n / 10)) ++ pretty (Z.to_N (n mod 10)).

(** The format specification [.2f] of an f-string applied to a float:
    the decimal numeral with two fractional digits nearest to the exact
    value of the float. *)
Definition format_2f (x : float) : string :=
  match Prim2SF x with
  | S754_nan => "nan"
  | S754_infinity s => if s then "-inf" else "inf"
  | S754_zero s => if s then "-0.00" else "0.00"
  | S754_finite s m e =>
      let n := round_half_even (Z.pos m * 100) e in
      (if s then "-" else "") ++
      pretty (Z.to_N (n / 100)) ++ "." ++ two_digits (n mod 100)
  end.

(** ** The class [PersonaConsistency] *)

Section PersonaConsistency.
Context `{Imports}.

(** [SentenceTransformer(model_name)]: a new model object, which no
    call has been made to yet. *)
Definition SentenceTransformer (model_name : string) : Py pyval := fun w =>
  (Return (VModel model_name),
   {| self_dict := self_dict w; encode_calls := [] |}).

Fixpoint as_sentences (items : list pyval) : option (list string) :=
  match items with
  | [] => Some []
  | VStr s :: rest => cons s <$> as_sentences rest
  | _ :: _ => None
  end.

(** [model.encode(sentences)]: the call is recorded, then answered. *)
Definition model_encode (model : pyval) (sentences : list pyval) : Py pyval :=
  match model with
  | VModel model_name =>
      match as_sentences sentences with
      | Some texts => fun w =>
          (Return (VArray (encode model_name texts)),
           {| self_dict := self_dict w;
              encode_calls := encode_calls w ++ [texts] |})
      | None => raise (TypeError "encode")
      end
  | _ => raise (AttributeError "encode")
  end.

(** [cosine_similarity(X, Y)] applied to two Python values. *)
Definition call_cosine_similarity (X Y : pyval) : Py (list (list float)) :=
  match X, Y with
  | VArray x, VArray y => mret (cosine_similarity x y)
  | _, _ => raise (TypeError "cosine_similarity")
  end.

(** [super().__init__(on_fail=..., **kwargs)] *)
Definition super_init (on_fail : pyval) (kwargs : list (string * pyval)) : Py unit :=
  fun w =>
    (Return tt, {| self_dict := Validator_init on_fail kwargs (self_dict w);
                   encode_calls := encode_calls w |}).

(** The default of the parameter [similarity_threshold] (line 34). *)
Definition similarity_threshold_default : float := 0.7%float.

(** Lines 31 to 41.  An argument left out is [None] here and takes the
    default of the signature. *)
Definition __init__ (persona_description : string)
    (similarity_threshold : option float) (on_fail : option pyval) : Py unit :=
  let similarity_threshold :=
    default similarity_threshold_default similarity_threshold in
  let on_fail := default VNone on_fail in
  load_global "super";;
  super_init on_fail
    [ ("persona_description", VStr persona_description);
      ("similarity_threshold", VFloat similarity_threshold) ];;
  setattr "_persona_description" (VStr persona_description);;
  setattr "_similarity_threshold" (VFloat similarity_threshold);;
  load_global "SentenceTransformer";;
  model ← SentenceTransformer "all-MiniLM-L6-v2";
  setattr "_model" model;;
  model ← getattr "_model";
  description ← getattr "_persona_description";
  embedding ← model_encode model [description];
  setattr "_persona_embedding" embedding.

(** [PersonaConsistency(persona_description, similarity_threshold, on_fail)]:
    [__init__] runs on a new instance, whose dictionary is empty. *)
Definition PersonaConsistency (persona_description : string)
    (similarity_threshold : option float) (on_fail : option pyval) : Py unit :=
  fun w =>
    __init__ persona_description similarity_threshold on_fail
      {| self_dict := ∅; encode_calls := encode_calls w |}.

(** [similarity >= threshold] where [threshold] is an attribute value. *)
Definition similarity_ge (similarity : float) (threshold : pyval) : Py bool :=
  match threshold with
  | VFloat t => mret (t <=? similarity)%float
  | _ => raise (TypeError ">=")
  end.

(** Lines 56 to 61: the decision once the similarity is known. *)
Definition decide_verdict (similarity : float) (threshold : pyval) : Py ValidationResult :=
  above ← similarity_ge similarity threshold;
  if above : bool then
    load_global "PassResult";;
    mret PassResult
  else
    load_global "FailResult";;
    mret (FailResult
            ("Output does not maintain the expected persona. Similarity score: "
               ++ format_2f similarity)).

(** Lines 43 to 61.  Line 54 evaluates the callee, then its arguments
    from left to right; the first argument is the name
    [persona_embedding], which the method neither receives nor assigns. *)
Definition validate (value : pyval) (metadata : gmap string pyval) : Py ValidationResult :=
  load_global "isinstance";;
  load_global "str";;
  if negb (isinstance_str value) then
    load_global "FailResult";;
    mret (FailResult "Input must be a string.")
  else
    model ← getattr "_model";
    output_embedding ← model_encode model [value];
    load_global "cosine_similarity";;
    persona_embedding ← load_global "persona_embedding";
    similarities ← call_cosine_similarity persona_embedding output_embedding;
    row ← getitem similarities 0;
    similarity ← getitem row 0;
    threshold ← getattr "_similarity_threshold";
    decide_verdict similarity threshold.

(** A caller that makes one check after another on the same instance
    and goes on after an exception. *)
Fixpoint checks (calls : list (pyval * gmap string pyval)) (w : world) : world :=
  match calls with
  | [] => w
  | (value, metadata) :: rest => checks rest (validate value metadata w).2
  end.

(** The dictionary of an instance once [__init__] has run. *)
Definition constructed_dict (P : string) (T : float) (on_fail : pyval) : gmap string pyval :=
  <["_persona_embedding" := VArray (encode "all-MiniLM-L6-v2" [P])]>
    (<["_model" := VModel "all-MiniLM-L6-v2"]>
       (<["_similarity_threshold" := VFloat T]>
          (<["_persona_description" := VStr P]>
             (Validator_init on_fail
                [ ("persona_description", VStr P);
                  ("similarity_threshold", VFloat T) ]
                ∅)))).

End PersonaConsistency.

(** ** A small instance of the imports *)

(** A deterministic embedder, used to run the model on concrete
    inputs: a sentence is sent to the numbers of its letters [u], [p]
    and [t]. *)
Definition count_char (c : ascii) (s : string) : nat :=
  length (filter (fun a => a = c) (String.list_ascii_of_string s)).

Definition float_of_nat (n : nat) : float :=
  PrimFloat.of_uint63 (Uint63.of_Z (Z.of_nat n)).

Definition letter_counts (s : string) : list float :=
  [ float_of_nat (count_char "u" s);
    float_of_nat (count_char "p" s);
    float_of_nat (count_char "t" s) ].

Definition dot (u v : list float) : float :=
  foldr (fun p acc => (p.1 * p.2 + acc)%float) 0%float (zip u v).

Definition norm (u : list float) : float := PrimFloat.sqrt (dot u u).

(** The cosine of the angle of each row of [X] with each row of [Y]. *)
Definition pairwise_cosine (X Y : list (list float)) : list (list float) :=
  (fun x => (fun y => (dot x y / (norm x * norm y))%float) <$> Y) <$> X.

Definition letter_imports : Imports := {|
  encode := fun _ texts => letter_counts <$> texts;
  cosine_similarity := pairwise_cosine;
  Validator_init := fun on_fail _ d => <["on_fail" := on_fail]> d
|}.

Definition no_metadata : gmap string pyval := ∅.

Definition fresh : world := {| self_dict := ∅; encode_calls := [] |}.

(** The scenarios of the specification. *)
Definition support_agent : string := "a cheerful customer support agent".
Definition happy_reply : string := "I'm so happy to help you today!".
Definition rude_reply : string := "Get lost, I don't care.".

(** The checker of the scenarios, once constructed. *)
Definition support_checker : world :=
  (PersonaConsistency (H := letter_imports) support_agent (Some 0.7%float) None fresh).2.

(** The sentences that a sequence of checks hands to the model. *)
Definition candidate_texts (calls : list (pyval * gmap string pyval)) : list (list string) :=
  flat_map (fun c => match c.1 with VStr text => [[text]] | _ => [] end) calls.

(** ** Running a computation step by step *)

Lemma bind_return {A B : Type} (c : Py A) (k : A -> Py B) (w w' : world) (a : A) :
  c w = (Return a, w') -> (c ≫= k) w = k a w'.
Proof. intros Hc. unfold mbind, Py_bind. now rewrite Hc. Qed.

Lemma bind_raise {A B : Type} (c : Py A) (k : A -> Py B) (w w' : world) (e : exn) :
  c w = (Raise e, w') -> (c ≫= k) w = (Raise e, w').
Proof. intros Hc. unfold mbind, Py_bind. now rewrite Hc. Qed.

(** ** The names that the two methods use *)

Lemma load_global_found (name : string) (v : pyval) (w : world) :
  module_globals !! name = Some v \/
  (module_globals !! name = None /\ builtins !! name = Some v) ->
  load_global name w = (Return v, w).
Proof.
  unfold load_global. intros [Hg | [Hg Hb]]; rewrite Hg; [reflexivity |].
  now rewrite Hb.
Qed.

Lemma persona_embedding_unbound :
  module_globals !! "persona_embedding" = None /\
  builtins !! "persona_embedding" = None.
Proof. split; vm_compute; reflexivity. Qed.

Lemma load_persona_embedding (w : world) :
  load_global "persona_embedding" w = (Raise (NameError "persona_embedding"), w).
Proof.
  unfold load_global.
  destruct persona_embedding_unbound as [Hg Hb]. now rewrite Hg, Hb.
Qed.

Lemma load_isinstance w : load_global "isinstance" w = (Return (VOpaque "isinstance"), w).
Proof. apply load_global_found. right. split; vm_compute; reflexivity. Qed.
Lemma load_str w : load_global "str" w = (Return (VOpaque "str"), w).
Proof. apply load_global_found. right. split; vm_compute; reflexivity. Qed.
Lemma load_super w : load_global "super" w = (Return (VOpaque "super"), w).
Proof. apply load_global_found. right. split; vm_compute; reflexivity. Qed.
Lemma load_FailResult w : load_global "FailResult" w = (Return (VOpaque "guardrails.validator_base.FailResult"), w).
Proof. apply load_global_found. left. vm_compute; reflexivity. Qed.
Lemma load_PassResult w : load_global "PassResult" w = (Return (VOpaque "guardrails.validator_base.PassResult"), w).
Proof. apply load_global_found. left. vm_compute; reflexivity. Qed.
Lemma load_cosine_similarity w : load_global "cosine_similarity" w = (Return (VOpaque "sklearn.metrics.pairwise.cosine_similarity"), w).
Proof. apply load_global_found. left. vm_compute; reflexivity. Qed.
Lemma load_SentenceTransformer w : load_global "SentenceTransformer" w = (Return (VOpaque "sentence_transformers.SentenceTransformer"), w).
Proof. apply load_global_found. left. vm_compute; reflexivity. Qed.

(** ** The order of binary64 numbers *)

(** Closes a goal on [SFcompare], stated over three numbers, by cases
    on their shapes and signs, then on the exponents and mantissas. *)
Ltac sf_order x y z :=
  destruct x, y, z; cbn; try discriminate; try reflexivity;
  repeat match goal with b : bool |- _ => destruct b end;
  cbn; try discriminate; try reflexivity;
  repeat match goal with
    | |- context [Z.compare ?a ?b] => destruct (Z.compare_spec a b)
    end;
  try discriminate; try reflexivity; try lia;
  repeat match goal with
    | |- context [Pos.compare_cont Eq ?a ?b] =>
        change (Pos.compare_cont Eq a b) with (Pos.compare a b);
        destruct (Pos.compare_spec a b)
    end;
  cbn; try discriminate; try reflexivity; try lia.

Lemma SFleb_trans (x y z : spec_float) :
  SFleb x y = true -> SFleb y z = true -> SFleb x z = true.
Proof. unfold SFleb. sf_order x y z. Qed.

Lemma SFleb_ltb_false (x y z : spec_float) :
  SFleb x y = true -> SFltb y z = true -> SFleb z x = false.
Proof. unfold SFleb, SFltb. sf_order x y z. Qed.

Lemma leb_trans (x y z : float) :
  (x <=? y)%float = true -> (y <=? z)%float = true -> (x <=? z)%float = true.
Proof. rewrite !leb_spec. apply SFleb_trans. Qed.

Lemma ltb_leb (x y : float) : (x <? y)%float = true -> (x <=? y)%float = true.
Proof.
  rewrite leb_spec, ltb_spec. unfold SFltb, SFleb.
  now destruct (SFcompare (Prim2SF x) (Prim2SF y)) as [[| |] |].
Qed.

Lemma leb_ltb_false (x y z : float) :
  (x <=? y)%float = true -> (y <? z)%float = true -> (z <=? x)%float = false.
Proof. rewrite !leb_spec, ltb_spec. apply SFleb_ltb_false. Qed.

(** ** The two methods *)

Section Proofs.
Context `{Imports}.

Lemma validate_not_str (value : pyval) (metadata : gmap string pyval) (w : world) :
  isinstance_str value = false ->
  validate value metadata w = (Return (FailResult "Input must be a string."), w).
Proof.
  intros Hv. unfold validate.
  rewrite (bind_return _ _ _ _ _ (load_isinstance w)).
  rewrite (bind_return _ _ _ _ _ (load_str w)).
  rewrite Hv. cbn [negb].
  rewrite (bind_return _ _ _ _ _ (load_FailResult w)).
  reflexivity.
Qed.

Lemma validate_str (text : string) (metadata : gmap string pyval) (w : world) (m : string) :
  self_dict w !! "_model" = Some (VModel m) ->
  validate (VStr text) metadata w =
    (Raise (NameError "persona_embedding"),
     {| self_dict := self_dict w; encode_calls := encode_calls w ++ [[text]] |}).
Proof.
  intros Hm. unfold validate.
  rewrite (bind_return _ _ _ _ _ (load_isinstance w)).
  rewrite (bind_return _ _ _ _ _ (load_str w)).
  cbn [negb isinstance_str].
  assert (Hget : getattr "_model" w = (Return (VModel m), w))
    by (unfold getattr; now rewrite Hm).
  rewrite (bind_return _ _ _ _ _ Hget).
  set (w1 := {| self_dict := self_dict w; encode_calls := encode_calls w ++ [[text]] |}).
  assert (Henc : model_encode (VModel m) [VStr text] w = (Return (VArray (encode m [text])), w1))
    by reflexivity.
  rewrite (bind_return _ _ _ _ _ Henc).
  rewrite (bind_return _ _ _ _ _ (load_cosine_similarity w1)).
  apply bind_raise, load_persona_embedding.
Qed.


Lemma construction (P : string) (T : option float) (on_fail : option pyval) (w0 : world) :
  PersonaConsistency P T on_fail w0 =
    (Return tt,
     {| self_dict :=
          constructed_dict P (default similarity_threshold_default T) (default VNone on_fail);
        encode_calls := [[P]] |}).
Proof.
  unfold PersonaConsistency, __init__.
  set (T' := default similarity_threshold_default T).
  set (f := default VNone on_fail).
  rewrite (bind_return _ _ _ _ _ (load_super _)).
  erewrite bind_return by reflexivity.
  erewrite bind_return by reflexivity.
  erewrite bind_return by reflexivity.
  rewrite (bind_return _ _ _ _ _ (load_SentenceTransformer _)).
  erewrite bind_return by reflexivity.
  erewrite bind_return by reflexivity.
  erewrite (bind_return (getattr "_model"))
    by (unfold getattr; cbn [self_dict setattr]; now rewrite lookup_insert_eq).
  erewrite (bind_return (getattr "_persona_description"))
    by (unfold getattr; cbn [self_dict];
        rewrite lookup_insert_ne by discriminate;
        rewrite lookup_insert_ne by discriminate;
        now rewrite lookup_insert_eq).
  erewrite bind_return by reflexivity.
  reflexivity.
Qed.

Lemma constructed_model P T on_fail :
  constructed_dict P T on_fail !! "_model" = Some (VModel "all-MiniLM-L6-v2").
Proof.
  unfold constructed_dict.
  rewrite lookup_insert_ne by discriminate. apply lookup_insert_eq.
Qed.

(** [validate] never writes to the instance. *)
Lemma validate_self_dict (value : pyval) (metadata : gmap string pyval) (w : world) :
  self_dict (validate value metadata w).2 = self_dict w.
Proof.
  destruct (isinstance_str value) eqn:Hv.
  - destruct value; try discriminate Hv.
    destruct (self_dict w !! "_model") as [model |] eqn:Hm.
    + destruct model;
        try (unfold validate;
             rewrite (bind_return _ _ _ _ _ (load_isinstance w));
             rewrite (bind_return _ _ _ _ _ (load_str w));
             cbn [negb isinstance_str];
             erewrite (bind_return (getattr "_model"))
               by (unfold getattr; now rewrite Hm);
             erewrite bind_raise by reflexivity; reflexivity).
      now rewrite (validate_str _ _ _ _ Hm).
    + unfold validate.
      rewrite (bind_return _ _ _ _ _ (load_isinstance w)).
      rewrite (bind_return _ _ _ _ _ (load_str w)).
      cbn [negb isinstance_str].
      erewrite bind_raise by (unfold getattr; now rewrite Hm).
      reflexivity.
  - now rewrite validate_not_str.
Qed.

Lemma checks_effect (calls : list (pyval * gmap string pyval)) (w : world) (m : string) :
  self_dict w !! "_model" = Some (VModel m) ->
  self_dict (checks calls w) = self_dict w /\
  encode_calls (checks calls w) = (encode_calls w ++ candidate_texts calls)%list.
Proof.
  revert w. induction calls as [| [value metadata] rest IH]; intros w Hm.
  - cbn. now rewrite app_nil_r.
  - cbn [checks candidate_texts flat_map fst].
    destruct (isinstance_str value) eqn:Hv.
    + destruct value; try discriminate Hv.
      rewrite (validate_str _ _ _ _ Hm). cbn [snd].
      destruct (IH {| self_dict := self_dict w;
                      encode_calls := encode_calls w ++ [[s]] |} Hm) as [Hd Hc].
      rewrite Hd, Hc. cbn [self_dict encode_calls].
      now rewrite <- app_assoc.
    + rewrite (validate_not_str _ _ _ Hv). cbn [snd].
      destruct (IH w Hm) as [Hd Hc]. rewrite Hd, Hc.
      split; [reflexivity |].
      destruct value; try discriminate Hv; reflexivity.
Qed.

Lemma decide_verdict_pass (similarity T : float) (w : world) :
  (T <=? similarity)%float = true ->
  decide_verdict similarity (VFloat T) w = (Return PassResult, w).
Proof.
  intros Hge. unfold decide_verdict.
  erewrite bind_return by (cbn [similarity_ge]; rewrite Hge; reflexivity).
  cbv beta iota.
  now rewrite (bind_return _ _ _ _ _ (load_PassResult w)).
Qed.

Lemma decide_verdict_fail (similarity T : float) (w : world) :
  (T <=? similarity)%float = false ->
  decide_verdict similarity (VFloat T) w =
    (Return
       (FailResult
          ("Output does not maintain the expected persona. Similarity score: "
             ++ format_2f similarity)), w).
Proof.
  intros Hlt. unfold decide_verdict.
  erewrite bind_return by (cbn [similarity_ge]; rewrite Hlt; reflexivity).
  cbv beta iota.
  now rewrite (bind_return _ _ _ _ _ (load_FailResult w)).
Qed.

(** ** Properties of the validator *)

(** C2: for every candidate that is not a string, [validate] returns
    the failure whose message is exactly "Input must be a string."; it
    returns, so nothing is raised, and the world is the one it started
    from, so the model's [encode] has not been called. *)
Theorem validate_rejects_non_string (value : pyval) (metadata : gmap string pyval) (w : world) :
  isinstance_str value = false ->
  validate value metadata w = (Return (FailResult "Input must be a string."), w) /\
  encode_calls (validate value metadata w).2 = encode_calls w.
Proof.
  intros Hv. rewrite (validate_not_str _ _ _ Hv). split; reflexivity.
Qed.

(** C3: the name [persona_embedding] is bound neither in the module
    nor in the builtins, and on every instance that the constructor has
    built, whatever checks were made on it since, [validate] applied to a
    string raises [NameError] for that name: no verdict is returned.  The
    candidate has been encoded by then, and nothing else changed. *)
Theorem validate_string_raises_NameError
    (P : string) (T : option float) (on_fail : option pyval) (w0 : world)
    (calls : list (pyval * gmap string pyval))
    (text : string) (metadata : gmap string pyval) :
  let w := checks calls (PersonaConsistency P T on_fail w0).2 in
  module_globals !! "persona_embedding" = None /\
  builtins !! "persona_embedding" = None /\
  validate (VStr text) metadata w =
    (Raise (NameError "persona_embedding"),
     {| self_dict := self_dict w; encode_calls := encode_calls w ++ [[text]] |}) /\
  (forall verdict, (validate (VStr text) metadata w).1 <> Return verdict).
Proof.
  intros w.
  split; [apply persona_embedding_unbound |].
  split; [apply persona_embedding_unbound |].
  assert (Hm : self_dict w !! "_model" = Some (VModel "all-MiniLM-L6-v2")).
  { subst w. rewrite construction. cbn [snd].
    set (w1 := {| self_dict := _; encode_calls := [[P]] |}).
    assert (Hm1 : self_dict w1 !! "_model" = Some (VModel "all-MiniLM-L6-v2"))
      by apply constructed_model.
    now rewrite (proj1 (checks_effect calls w1 _ Hm1)). }
  rewrite (validate_str _ _ _ _ Hm). split; [reflexivity | discriminate].
Qed.

(** C4, as amended: construction returns normally, has called the
    model's [encode] exactly once, on the persona description, and the
    result is stored in the attribute [_persona_embedding]; a later check
    adds no call when its candidate is not a string and exactly one call,
    on the candidate, when it is a string; the stored embedding stays as
    it is. *)
Theorem construction_embeds_persona_once
    (P : string) (T : option float) (on_fail : option pyval) (w0 : world)
    (calls : list (pyval * gmap string pyval)) :
  let built := PersonaConsistency P T on_fail w0 in
  built.1 = Return tt /\
  encode_calls built.2 = [[P]] /\
  self_dict built.2 !! "_persona_embedding"
    = Some (VArray (encode "all-MiniLM-L6-v2" [P])) /\
  encode_calls (checks calls built.2) = [P] :: candidate_texts calls /\
  self_dict (checks calls built.2) !! "_persona_embedding"
    = Some (VArray (encode "all-MiniLM-L6-v2" [P])).
Proof.
  intros built. subst built. rewrite construction. cbn [fst snd].
  set (w := {| self_dict := _; encode_calls := [[P]] |}).
  assert (Hm : self_dict w !! "_model" = Some (VModel "all-MiniLM-L6-v2"))
    by apply constructed_model.
  destruct (checks_effect calls w _ Hm) as [Hd Hc].
  rewrite Hd, Hc. subst w. cbn [self_dict encode_calls].
  unfold constructed_dict. rewrite lookup_insert_eq.
  repeat split; reflexivity.
Qed.

(** C6: a candidate equal to the persona description is not passed,
    whatever the threshold: [validate] raises [NameError] on it as on
    every string. *)
Theorem validate_persona_itself_raises
    (P : string) (T : option float) (on_fail : option pyval) (w0 : world)
    (metadata : gmap string pyval) :
  (validate (VStr P) metadata (PersonaConsistency P T on_fail w0).2).1
    = Raise (NameError "persona_embedding").
Proof.
  rewrite construction. cbn [snd].
  now erewrite validate_str by apply constructed_model.
Qed.

(** C7: the metadata has no effect: two calls of [validate] that
    differ only in their metadata have the same outcome and leave the
    same world. *)
Theorem validate_ignores_metadata (value : pyval) (m1 m2 : gmap string pyval) (w : world) :
  validate value m1 w = validate value m2 w.
Proof. reflexivity. Qed.

(** C8: construction succeeds for every float given as threshold and
    stores it as it is, with no check of its range.  In the decision
    rule, a threshold above 1 is met by no similarity that is at most 1,
    a threshold of at most -1 is met by every similarity that is at
    least -1, and a negative threshold by every similarity that is at
    least 0. *)
Theorem construction_accepts_any_threshold
    (P : string) (T : float) (on_fail : option pyval) (w0 : world) :
  (PersonaConsistency P (Some T) on_fail w0).1 = Return tt /\
  self_dict (PersonaConsistency P (Some T) on_fail w0).2 !! "_similarity_threshold"
    = Some (VFloat T) /\
  (forall (similarity : float) (w : world),
      (similarity <=? 1)%float = true -> (1 <? T)%float = true ->
      decide_verdict similarity (VFloat T) w =
        (Return
           (FailResult
              ("Output does not maintain the expected persona. Similarity score: "
                 ++ format_2f similarity)), w)) /\
  (forall (similarity : float) (w : world),
      (-1 <=? similarity)%float = true -> (T <=? -1)%float = true ->
      decide_verdict similarity (VFloat T) w = (Return PassResult, w)) /\
  (forall (similarity : float) (w : world),
      (0 <=? similarity)%float = true -> (T <? 0)%float = true ->
      decide_verdict similarity (VFloat T) w = (Return PassResult, w)).
Proof.
  rewrite construction. cbn [fst snd self_dict default].
  split; [reflexivity |]. split.
  { unfold constructed_dict.
    rewrite lookup_insert_ne by discriminate.
    rewrite lookup_insert_ne by discriminate.
    apply lookup_insert_eq. }
  split; [| split]; intros similarity w Hs HT.
  - apply decide_verdict_fail. exact (leb_ltb_false _ _ _ Hs HT).
  - apply decide_verdict_pass. exact (leb_trans _ _ _ HT Hs).
  - apply decide_verdict_pass. exact (leb_trans _ _ _ (ltb_leb _ _ HT) Hs).
Qed.

(** C9: when the threshold is left out at construction, the instance
    holds 0.7, as if 0.7 had been given. *)
Theorem threshold_defaults_to_0_7 (P : string) (on_fail : option pyval) (w0 : world) :
  self_dict (PersonaConsistency P None on_fail w0).2 !! "_similarity_threshold"
    = Some (VFloat 0.7%float) /\
  PersonaConsistency P None on_fail w0 = PersonaConsistency P (Some 0.7%float) on_fail w0.
Proof.
  split; [| reflexivity].
  rewrite construction. cbn [snd self_dict default]. unfold constructed_dict.
  rewrite lookup_insert_ne by discriminate.
  rewrite lookup_insert_ne by discriminate.
  apply lookup_insert_eq.
Qed.

(** C10: a call of [validate] leaves the instance as it was, for every
    candidate, metadata and world: its dictionary is the same after the
    call, and so are the persona description, the threshold and the
    stored embedding. *)
Theorem validate_leaves_instance_unchanged
    (value : pyval) (metadata : gmap string pyval) (w : world) :
  let w' := (validate value metadata w).2 in
  self_dict w' = self_dict w /\
  self_dict w' !! "_persona_description" = self_dict w !! "_persona_description" /\
  self_dict w' !! "_similarity_threshold" = self_dict w !! "_similarity_threshold" /\
  self_dict w' !! "_persona_embedding" = self_dict w !! "_persona_embedding".
Proof.
  intros w'. subst w'. rewrite validate_self_dict. repeat split; reflexivity.
Qed.

End Proofs.

(** ** The scenarios, run *)

(** The candidate 42 of the specification's last scenario. *)
Lemma validate_rejects_non_string_witness :
  isinstance_str (VInt 42) = false /\
  validate (H := letter_imports) (VInt 42) no_metadata support_checker
    = (Return (FailResult "Input must be a string."), support_checker) /\
  encode_calls (validate (H := letter_imports) (VInt 42) no_metadata support_checker).2
    = encode_calls support_checker.
Proof.
  split; [reflexivity |].
  apply (validate_rejects_non_string (H := letter_imports)
           (VInt 42) no_metadata support_checker).
  reflexivity.
Defined.

(** A threshold of 1.5, which a similarity of 0.9 does not meet, and a
    threshold of -2, which a similarity of -0.25 meets. *)
Lemma construction_accepts_any_threshold_witness :
  (PersonaConsistency (H := letter_imports) support_agent (Some 1.5%float) None fresh).1
    = Return tt /\
  decide_verdict 0.9%float (VFloat 1.5%float) fresh
    = (Return
         (FailResult
            "Output does not maintain the expected persona. Similarity score: 0.90"),
       fresh) /\
  (PersonaConsistency (H := letter_imports) support_agent (Some (-2)%float) None fresh).1
    = Return tt /\
  decide_verdict (-0.25)%float (VFloat (-2)%float) fresh = (Return PassResult, fresh).
Proof.
  destruct (construction_accepts_any_threshold (H := letter_imports)
              support_agent 1.5%float None fresh) as (Hbuilt & _ & Habove & _).
  destruct (construction_accepts_any_threshold (H := letter_imports)
              support_agent (-2)%float None fresh) as (Hbuilt' & _ & _ & Hbelow & _).
  split; [exact Hbuilt |].
  split; [exact (Habove 0.9%float fresh eq_refl eq_refl) |].
  split; [exact Hbuilt' |].
  exact (Hbelow (-0.25)%float fresh eq_refl eq_refl).
Defined.

(** C1: the happy reply of the first scenario has a similarity of
    about 0.85 to the persona, which is at least the threshold 0.7, and
    the decision rule passes such a similarity; yet [validate] does not
    return [PassResult] on it: it raises [NameError]. *)
Theorem validate_above_threshold_raises :
  exists similarity : float,
    pairwise_cosine [letter_counts support_agent] [letter_counts happy_reply]
      = [[similarity]] /\
    (0.7 <=? similarity)%float = true /\
    decide_verdict similarity (VFloat 0.7%float) support_checker
      = (Return PassResult, support_checker) /\
    (validate (H := letter_imports) (VStr happy_reply) no_metadata support_checker).1
      = Raise (NameError "persona_embedding").
Proof.
  eexists. split; [vm_compute; reflexivity |].
  split; [reflexivity |].
  split; [apply decide_verdict_pass; reflexivity |].
  vm_compute. reflexivity.
Qed.

(** C5: the rude reply of the second scenario has a similarity of
    about 0.64 to the persona, below the threshold 0.7, and the decision
    rule fails such a similarity with the score at two decimals (0.4321
    is rendered 0.43); yet [validate] returns no failure on it: it raises
    [NameError]. *)
Theorem validate_below_threshold_raises :
  exists similarity : float,
    pairwise_cosine [letter_counts support_agent] [letter_counts rude_reply]
      = [[similarity]] /\
    (0.7 <=? similarity)%float = false /\
    decide_verdict similarity (VFloat 0.7%float) support_checker
      = (Return
           (FailResult
              "Output does not maintain the expected persona. Similarity score: 0.64"),
         support_checker) /\
    decide_verdict 0.4321%float (VFloat 0.7%float) support_checker
      = (Return
           (FailResult
              "Output does not maintain the expected persona. Similarity score: 0.43"),
         support_checker) /\
    (validate (H := letter_imports) (VStr rude_reply) no_metadata support_checker).1
      = Raise (NameError "persona_embedding").
Proof.
  eexists. split; [vm_compute; reflexivity |].
  split; [reflexivity |].
  split; [rewrite decide_verdict_fail by reflexivity; vm_compute; reflexivity |].
  split; [rewrite decide_verdict_fail by reflexivity; vm_compute; reflexivity |].
  vm_compute. reflexivity.
Qed.

(** C4, as stated, fails: after construction the model's [encode] has
    been called once, and the check of a string candidate calls it a
    second time. *)
Lemma check_of_string_calls_encode :
  length (encode_calls support_checker) = 1 /\
  length (encode_calls
            (validate (H := letter_imports) (VStr happy_reply) no_metadata
               support_checker).2) = 2 /\
  encode_calls
    (validate (H := letter_imports) (VStr happy_reply) no_metadata support_checker).2
    <> encode_calls support_checker.
Proof.
  split; [vm_compute; reflexivity |].
  split; [vm_compute; reflexivity |].
  vm_compute. discriminate.
Qed.

(** ** More on floats and on the score's format *)

Lemma SFeqb_refl_not_nan (p : spec_float) : SFeqb p p = false -> p = S754_nan.
Proof.
  unfold SFeqb. destruct p as [s | s | | s m e]; cbn; try discriminate; try reflexivity.
  - destruct s; discriminate.
  - rewrite Z.compare_refl.
    change (Pos.compare_cont Eq m m) with (Pos.compare m m).
    rewrite Pos.compare_refl. destruct s; discriminate.
Qed.

Lemma nan_spec (x : float) : (x =? x)%float = false -> Prim2SF x = S754_nan.
Proof. rewrite FloatAxioms.eqb_spec. apply SFeqb_refl_not_nan. Qed.

Lemma leb_refl (x : float) : (x =? x)%float = true -> (x <=? x)%float = true.
Proof.
  rewrite FloatAxioms.eqb_spec, leb_spec. unfold SFeqb, SFleb.
  now destruct (SFcompare (Prim2SF x) (Prim2SF x)) as [[| |] |].
Qed.

Lemma leb_nan_l (x y : float) : (x =? x)%float = false -> (x <=? y)%float = false.
Proof.
  intros Hx. rewrite leb_spec, (nan_spec _ Hx). reflexivity.
Qed.

Lemma leb_nan_r (x y : float) : (y =? y)%float = false -> (x <=? y)%float = false.
Proof.
  intros Hy. rewrite leb_spec, (nan_spec _ Hy). unfold SFleb.
  now destruct (Prim2SF x).
Qed.

Lemma format_2f_nan (x : float) : (x =? x)%float = false -> format_2f x = "nan".
Proof. intros Hx. unfold format_2f. now rewrite (nan_spec _ Hx). Qed.

Lemma pretty_digit (k : Z) :
  (0 <= k < 10)%Z ->
  exists d : ascii,
    pretty (Z.to_N k) = String d EmptyString /\ Ascii.is_nat d = Some (Z.to_nat k).
Proof.
  intros Hk.
  assert (Hcases : (k = 0 \/ k = 1 \/ k = 2 \/ k = 3 \/ k = 4 \/ k = 5 \/ k = 6 \/
                    k = 7 \/ k = 8 \/ k = 9)%Z) by lia.
  repeat destruct Hcases as [-> | Hcases]; try subst k;
    eexists; split; vm_compute; reflexivity.
Qed.

Lemma two_digits_shape (n : Z) :
  (0 <= n < 100)%Z ->
  exists d1 d2 : ascii,
    two_digits n = String d1 (String d2 EmptyString) /\
    Ascii.is_nat d1 = Some (Z.to_nat (n / 10)) /\
    Ascii.is_nat d2 = Some (Z.to_nat (n mod 10)).
Proof.
  intros Hn. unfold two_digits.
  destruct (pretty_digit (n / 10)) as (d1 & H1 & Hd1).
  { split; [apply Z.div_pos; lia | apply Z.div_lt_upper_bound; lia]. }
  destruct (pretty_digit (n mod 10)) as (d2 & H2 & Hd2).
  { apply Z.mod_pos_bound. lia. }
  exists d1, d2. rewrite H1, H2. repeat split; assumption.
Qed.

Lemma format_2f_shape (x : float) :
  is_nan x = false -> is_infinity x = false ->
  exists (whole : string) (d1 d2 : ascii),
    format_2f x = whole ++ "." ++ String d1 (String d2 EmptyString) /\
    is_Some (Ascii.is_nat d1) /\ is_Some (Ascii.is_nat d2).
Proof.
  intros Hnan Hinf. unfold format_2f, Prim2SF. rewrite Hnan, Hinf.
  assert (Hzero : forall s : bool,
             exists (whole : string) (d1 d2 : ascii),
               (if s then "-0.00" else "0.00")
                 = whole ++ "." ++ String d1 (String d2 EmptyString) /\
               is_Some (Ascii.is_nat d1) /\ is_Some (Ascii.is_nat d2)).
  { intros [|]; [exists "-0" | exists "0"]; exists "0"%char, "0"%char;
      (split; [reflexivity | split; eexists; reflexivity]). }
  destruct (is_zero x); [apply Hzero |].
  destruct (Z.frexp x) as [r ex].
  destruct (shr_fexp _ _ _ _ _) as [shr e'].
  destruct (shr_m shr) as [| m | m]; [apply (Hzero false) | | apply (Hzero false)].
  cbv zeta.
  set (n := round_half_even (Z.pos m * 100) e').
  destruct (two_digits_shape (n mod 100)) as (d1 & d2 & Hd & H1 & H2).
  { apply Z.mod_pos_bound. lia. }
  exists ((if get_sign x then "-" else "") ++ pretty (Z.to_N (n / 100))), d1, d2.
  rewrite Hd. split; [| split; eexists; eassumption].
  destruct (get_sign x); reflexivity.
Qed.

(** ** Further properties of the two methods *)

Section Extra.
Context `{Imports}.

Lemma validate_str_raises (text : string) (metadata : gmap string pyval) (w : world) :
  exists (e : exn) (w' : world), validate (VStr text) metadata w = (Raise e, w').
Proof.
  destruct (self_dict w !! "_model") as [model |] eqn:Hm.
  - destruct model;
      try (eexists _, _; unfold validate;
           rewrite (bind_return _ _ _ _ _ (load_isinstance w));
           rewrite (bind_return _ _ _ _ _ (load_str w));
           cbn [negb isinstance_str];
           erewrite (bind_return (getattr "_model"))
             by (unfold getattr; now rewrite Hm);
           erewrite bind_raise by reflexivity; reflexivity).
    eexists _, _. apply (validate_str _ _ _ _ Hm).
  - eexists _, _. unfold validate.
    rewrite (bind_return _ _ _ _ _ (load_isinstance w)).
    rewrite (bind_return _ _ _ _ _ (load_str w)).
    cbn [negb isinstance_str].
    erewrite bind_raise by (unfold getattr; now rewrite Hm).
    reflexivity.
Qed.

(** X1: whenever [validate] returns a verdict, in any world, the
    candidate is not a string, the verdict is the failure "Input must be
    a string." and the world is unchanged; [validate] never returns
    [PassResult]. *)
Theorem validate_returns_only_type_failure
    (value : pyval) (metadata : gmap string pyval) (w : world) (verdict : ValidationResult) :
  (validate value metadata w).1 = Return verdict ->
  isinstance_str value = false /\
  verdict = FailResult "Input must be a string." /\
  verdict <> PassResult /\
  (validate value metadata w).2 = w.
Proof.
  intros Hret. destruct (isinstance_str value) eqn:Hv.
  - destruct value; try discriminate Hv.
    destruct (validate_str_raises s metadata w) as (e & w' & Hraise).
    rewrite Hraise in Hret. discriminate Hret.
  - rewrite (validate_not_str _ _ _ Hv) in *. cbn [fst snd] in *.
    injection Hret as <-. repeat split. discriminate.
Qed.

(** X2: on an instance that has no attribute [_model], [validate]
    applied to a string raises [AttributeError] for [_model] at line 51,
    before any call of [encode]: the world is unchanged. *)
Theorem validate_without_model_raises_AttributeError
    (text : string) (metadata : gmap string pyval) (w : world) :
  self_dict w !! "_model" = None ->
  validate (VStr text) metadata w = (Raise (AttributeError "_model"), w).
Proof.
  intros Hm. unfold validate.
  rewrite (bind_return _ _ _ _ _ (load_isinstance w)).
  rewrite (bind_return _ _ _ _ _ (load_str w)).
  cbn [negb isinstance_str].
  erewrite bind_raise by (unfold getattr; now rewrite Hm).
  reflexivity.
Qed.

(** X3: after construction and any sequence of checks, the instance
    dictionary is the one the constructor built: the description is the
    one given, the model is all-MiniLM-L6-v2, and the stored embedding is
    that model's encoding of that description. *)
Theorem checks_keep_instance
    (P : string) (T : option float) (on_fail : option pyval) (w0 : world)
    (calls : list (pyval * gmap string pyval)) :
  let w := checks calls (PersonaConsistency P T on_fail w0).2 in
  self_dict w =
    constructed_dict P (default similarity_threshold_default T) (default VNone on_fail) /\
  self_dict w !! "_persona_description" = Some (VStr P) /\
  self_dict w !! "_model" = Some (VModel "all-MiniLM-L6-v2") /\
  self_dict w !! "_persona_embedding" = Some (VArray (encode "all-MiniLM-L6-v2" [P])).
Proof.
  intros w. subst w. rewrite construction. cbn [snd].
  set (w1 := {| self_dict := _; encode_calls := [[P]] |}).
  assert (Hm : self_dict w1 !! "_model" = Some (VModel "all-MiniLM-L6-v2"))
    by apply constructed_model.
  rewrite (proj1 (checks_effect calls w1 _ Hm)). subst w1. cbn [self_dict].
  split; [reflexivity |]. unfold constructed_dict.
  split; [| split].
  - do 3 (rewrite lookup_insert_ne by discriminate). apply lookup_insert_eq.
  - rewrite lookup_insert_ne by discriminate. apply lookup_insert_eq.
  - apply lookup_insert_eq.
Qed.

(** X4: [__init__] writes the four attributes of lines 38 to 41 and no
    other: under every other name the instance holds what the base
    class's initializer left there. *)
Theorem construction_keeps_base_attributes
    (P : string) (T : option float) (on_fail : option pyval) (w0 : world) (k : string) :
  k <> "_persona_description" -> k <> "_similarity_threshold" ->
  k <> "_model" -> k <> "_persona_embedding" ->
  self_dict (PersonaConsistency P T on_fail w0).2 !! k =
    Validator_init (default VNone on_fail)
      [ ("persona_description", VStr P);
        ("similarity_threshold", VFloat (default similarity_threshold_default T)) ]
      ∅ !! k.
Proof.
  intros H1 H2 H3 H4. rewrite construction. cbn [snd self_dict].
  unfold constructed_dict.
  now rewrite !lookup_insert_ne by congruence.
Qed.

(** X5: in the decision of line 56 the boundary is inclusive: a
    similarity equal to the threshold passes, unless it is NaN. *)
Theorem threshold_boundary_passes (T : float) (w : world) :
  is_nan T = false ->
  decide_verdict T (VFloat T) w = (Return PassResult, w).
Proof.
  unfold is_nan. intros HT. apply decide_verdict_pass, leb_refl.
  now destruct (T =? T)%float.
Qed.

(** X6: the decision of line 56 is monotone: when a similarity passes
    a threshold, every similarity at least as large passes every
    threshold at most as large. *)
Theorem decision_is_monotone (similarity similarity' T T' : float) (w : world) :
  decide_verdict similarity (VFloat T) w = (Return PassResult, w) ->
  (similarity <=? similarity')%float = true ->
  (T' <=? T)%float = true ->
  decide_verdict similarity' (VFloat T') w = (Return PassResult, w).
Proof.
  intros Hpass Hs HT.
  destruct (T <=? similarity)%float eqn:Hge.
  - apply decide_verdict_pass.
    exact (leb_trans _ _ _ HT (leb_trans _ _ _ Hge Hs)).
  - rewrite (decide_verdict_fail _ _ _ Hge) in Hpass. discriminate Hpass.
Qed.

(** X7: when the similarity or the threshold is NaN, the decision of
    lines 56 to 61 is the failure, and a NaN similarity is reported as
    "nan" in its message. *)
Theorem nan_never_passes (similarity T : float) (w : world) :
  is_nan similarity = true \/ is_nan T = true ->
  decide_verdict similarity (VFloat T) w =
    (Return
       (FailResult
          ("Output does not maintain the expected persona. Similarity score: "
             ++ (if is_nan similarity then "nan" else format_2f similarity))), w).
Proof.
  unfold is_nan. intros Hnan.
  assert (Hlt : (T <=? similarity)%float = false).
  { destruct Hnan as [Hs | HT].
    - apply leb_nan_r. now destruct (similarity =? similarity)%float.
    - apply leb_nan_l. now destruct (T =? T)%float. }
  rewrite (decide_verdict_fail _ _ _ Hlt).
  destruct (similarity =? similarity)%float eqn:Hs; cbn [negb]; [reflexivity |].
  now rewrite (format_2f_nan _ Hs).
Qed.

(** X8: with a float threshold the decision of lines 56 to 61 always
    returns, leaves the world unchanged, and its verdict is never the
    failure "Input must be a string." of line 47. *)
Theorem decision_returns_distinct_message (similarity T : float) (w : world) :
  exists verdict : ValidationResult,
    decide_verdict similarity (VFloat T) w = (Return verdict, w) /\
    verdict <> FailResult "Input must be a string.".
Proof.
  destruct (T <=? similarity)%float eqn:Hge.
  - exists PassResult. split; [now apply decide_verdict_pass | discriminate].
  - eexists. split; [now apply decide_verdict_fail | discriminate].
Qed.

(** X9: for a finite similarity below the threshold, the message of
    line 60 ends with a point followed by exactly two decimal digits. *)
Theorem failure_message_has_two_decimals (similarity T : float) (w : world) :
  (T <=? similarity)%float = false ->
  is_nan similarity = false -> is_infinity similarity = false ->
  exists (whole : string) (d1 d2 : ascii),
    decide_verdict similarity (VFloat T) w =
      (Return
         (FailResult
            ("Output does not maintain the expected persona. Similarity score: "
               ++ whole ++ "." ++ String d1 (String d2 EmptyString))), w) /\
    is_Some (Ascii.is_nat d1) /\ is_Some (Ascii.is_nat d2).
Proof.
  intros Hlt Hnan Hinf.
  destruct (format_2f_shape _ Hnan Hinf) as (whole & d1 & d2 & Hshape & Hd1 & Hd2).
  exists whole, d1, d2. rewrite (decide_verdict_fail _ _ _ Hlt), Hshape.
  repeat split; assumption.
Qed.

(** X10: on a constructed instance the outcome of a check does not
    depend on the checks made before it. *)
Theorem check_outcome_ignores_history
    (P : string) (T : option float) (on_fail : option pyval) (w0 : world)
    (calls : list (pyval * gmap string pyval))
    (value : pyval) (metadata : gmap string pyval) :
  (validate value metadata (checks calls (PersonaConsistency P T on_fail w0).2)).1
    = (validate value metadata (PersonaConsistency P T on_fail w0).2).1.
Proof.
  rewrite construction. cbn [snd].
  set (w1 := {| self_dict := _; encode_calls := [[P]] |}).
  assert (Hm : self_dict w1 !! "_model" = Some (VModel "all-MiniLM-L6-v2"))
    by apply constructed_model.
  assert (Hm' : self_dict (checks calls w1) !! "_model" = Some (VModel "all-MiniLM-L6-v2"))
    by now rewrite (proj1 (checks_effect calls w1 _ Hm)).
  destruct (isinstance_str value) eqn:Hv.
  - destruct value; try discriminate Hv.
    now rewrite (validate_str _ _ _ _ Hm), (validate_str _ _ _ _ Hm').
  - now rewrite !(validate_not_str _ _ _ Hv).
Qed.

End Extra.

(** ** The further properties, run *)

Lemma validate_returns_only_type_failure_witness :
  (validate (H := letter_imports) (VInt 42) no_metadata support_checker).1
    = Return (FailResult "Input must be a string.") /\
  isinstance_str (VInt 42) = false /\
  FailResult "Input must be a string." <> PassResult.
Proof.
  assert (Hret : (validate (H := letter_imports) (VInt 42) no_metadata support_checker).1
                 = Return (FailResult "Input must be a string.")) by reflexivity.
  destruct (validate_returns_only_type_failure (H := letter_imports)
              (VInt 42) no_metadata support_checker _ Hret) as (Hv & _ & Hpass & _).
  split; [exact Hret |]. split; [exact Hv | exact Hpass].
Defined.

Lemma validate_without_model_raises_AttributeError_witness :
  self_dict fresh !! "_model" = None /\
  validate (H := letter_imports) (VStr happy_reply) no_metadata fresh
    = (Raise (AttributeError "_model"), fresh).
Proof.
  split; [reflexivity |].
  apply (validate_without_model_raises_AttributeError (H := letter_imports)
           happy_reply no_metadata fresh).
  reflexivity.
Defined.

Lemma construction_keeps_base_attributes_witness :
  self_dict support_checker !! "on_fail" = Some VNone.
Proof.
  unfold support_checker.
  rewrite (construction_keeps_base_attributes (H := letter_imports)
             support_agent (Some 0.7%float) None fresh "on_fail");
    [reflexivity | discriminate | discriminate | discriminate | discriminate].
Defined.

Lemma threshold_boundary_passes_witness :
  is_nan 0.7%float = false /\
  decide_verdict 0.7%float (VFloat 0.7%float) fresh = (Return PassResult, fresh).
Proof.
  split; [reflexivity |].
  apply (threshold_boundary_passes 0.7%float fresh). reflexivity.
Defined.

Lemma decision_is_monotone_witness :
  decide_verdict 0.8%float (VFloat 0.7%float) fresh = (Return PassResult, fresh) /\
  (0.8 <=? 0.9)%float = true /\ (0.5 <=? 0.7)%float = true /\
  decide_verdict 0.9%float (VFloat 0.5%float) fresh = (Return PassResult, fresh).
Proof.
  assert (Hpass : decide_verdict 0.8%float (VFloat 0.7%float) fresh
                  = (Return PassResult, fresh)) by (vm_compute; reflexivity).
  split; [exact Hpass |]. split; [reflexivity |]. split; [reflexivity |].
  apply (decision_is_monotone 0.8%float 0.9%float 0.7%float 0.5%float fresh Hpass);
    reflexivity.
Defined.

Lemma nan_never_passes_witness :
  is_nan nan = true /\
  decide_verdict nan (VFloat 0.7%float) fresh =
    (Return
       (FailResult
          "Output does not maintain the expected persona. Similarity score: nan"),
     fresh).
Proof.
  split; [reflexivity |].
  apply (nan_never_passes nan 0.7%float fresh). left. reflexivity.
Defined.

Lemma failure_message_has_two_decimals_witness :
  (0.7 <=? 0.4321)%float = false /\
  is_nan 0.4321%float = false /\ is_infinity 0.4321%float = false /\
  exists (whole : string) (d1 d2 : ascii),
    decide_verdict 0.4321%float (VFloat 0.7%float) fresh =
      (Return
         (FailResult
            ("Output does not maintain the expected persona. Similarity score: "
               ++ whole ++ "." ++ String d1 (String d2 EmptyString))), fresh) /\
    is_Some (Ascii.is_nat d1) /\ is_Some (Ascii.is_nat d2).
Proof.
  split; [reflexivity |]. split; [reflexivity |]. split; [reflexivity |].
  apply (failure_message_has_two_decimals 0.4321%float 0.7%float fresh); reflexivity.
Defined.
